(** * Context manglers of RISC OS Pyromaniac: a shallow embedding

    The development follows [riscos/contextmangler.py] and
    [test_contextmangler.py].  Python integers are unbounded, so they are
    values of [Z]; Python strings are [string]s (the names used by the
    module are plain ASCII); the [manglers] dictionary is a [gmap] from the
    lower-cased name to the class object; a raised exception is the [Raise]
    branch of [result]. *)

From Stdlib Require Import ZArith Lia Bool List Ascii String DecimalString.
From Stdlib Require Import Sorted Permutation.
From stdpp Require Import base strings gmap.
Import ListNotations.

Local Open Scope string_scope.
Local Open Scope Z_scope.

(** ** Python runtime pieces used by the module *)

(** The exception classes the module can raise.  [ConfigurationError] is
    imported from [pyromaniac.config], which is not part of this
    repository; when the import fails the module binds the name to
    [ValueError].  [PyromaniacConfigurationError] stands for the imported
    class. *)
Inductive exn_class : Type :=
| ValueError
| PyromaniacConfigurationError
| ZeroDivisionError
| NotImplementedError
| AssertionError.

Record exn : Type := mkExn { exc_class : exn_class; exc_msg : string }.

Inductive result (A : Type) : Type :=
| Ok (a : A)
| Raise (e : exn).
Arguments Ok {A} a.
Arguments Raise {A} e.

Definition bind {A B : Type} (r : result A) (k : A -> result B) : result B :=
  match r with
  | Ok a => k a
  | Raise e => Raise e
  end.

Notation "'let*' x ':=' r 'in' k" := (bind r (fun x => k))
  (at level 10, x name, r at level 100, k at level 200).

Definition is_ok {A : Type} (r : result A) : bool :=
  match r with Ok _ => true | Raise _ => false end.

(** [str(n)] for an integer. *)
Definition str_of_int (n : Z) : string := NilZero.string_of_int (Z.to_int n).

(** [template.format(a1, a2, ...)] for templates whose only fields are
    the automatic [{}]. *)
Fixpoint format (template : string) (args : list string) : string :=
  match template with
  | String "{" (String "}" rest) =>
      match args with
      | a :: args' => String.append a (format rest args')
      | [] => format rest []
      end
  | String c rest => String c (format rest args)
  | EmptyString => EmptyString
  end.

(** [sep.join(l)]. *)
Fixpoint join (sep : string) (l : list string) : string :=
  match l with
  | [] => EmptyString
  | [s] => s
  | s :: l' => String.append s (String.append sep (join sep l'))
  end.

(** [s.lower()] on ASCII text. *)
Definition lower_ascii (c : ascii) : ascii :=
  let n := nat_of_ascii c in
  if (Nat.leb 65 n && Nat.leb n 90)%bool then ascii_of_nat (n + 32)%nat else c.

Fixpoint lower (s : string) : string :=
  match s with
  | EmptyString => EmptyString
  | String c s' => String (lower_ascii c) (lower s')
  end.

(** The slices [s[:n]] and [s[n:]]. *)
Fixpoint slice_to (n : nat) (s : string) : string :=
  match n, s with
  | S n', String c s' => String c (slice_to n' s')
  | _, _ => EmptyString
  end.

Fixpoint slice_from (n : nat) (s : string) : string :=
  match n, s with
  | S n', String _ s' => slice_from n' s'
  | _, _ => s
  end.

(** [sorted(l, key=key)]: Python's sort is stable, and so is this
    insertion sort, hence both compute the same list. *)
Section Sorted.
Context {A : Type} (key : A -> string).

Fixpoint sorted_insert (x : A) (l : list A) : list A :=
  match l with
  | [] => [x]
  | y :: l' =>
      if String.leb (key x) (key y) then x :: l
      else y :: sorted_insert x l'
  end.

Fixpoint sorted (l : list A) : list A :=
  match l with
  | [] => []
  | x :: l' => sorted_insert x (sorted l')
  end.
End Sorted.

(** [a % b]: Python's remainder has the sign of the divisor, as [Z.modulo]
    has; a zero divisor raises [ZeroDivisionError].  The text of the
    message depends on the version of the interpreter; only the class is
    relied on. *)
Definition py_mod (a b : Z) : result Z :=
  if b =? 0 then Raise (mkExn ZeroDivisionError "integer division or modulo by zero")
  else Ok (a mod b).

(** [int(a / b)].  Under Python 3 [a / b] is the correctly rounded
    floating-point quotient and [int] truncates it toward zero, which is
    [Z.quot] as long as the rounding does not reach the next integer: so
    it is for a dividend below 2^32 and a positive divisor, the range of
    a 32-bit context with a positive limit or multiplier.  Under Python 2
    [a / b] is the floor quotient, which is [Z.quot] on non-negative
    operands. *)
Definition py_int_div (a b : Z) : result Z :=
  if b =? 0 then Raise (mkExn ZeroDivisionError "division by zero")
  else Ok (Z.quot a b).

(** [a << n]: a negative shift count raises. *)
Definition py_shiftl (a n : Z) : result Z :=
  if n <? 0 then Raise (mkExn ValueError "negative shift count")
  else Ok (Z.shiftl a n).

(** ** The mangler classes *)

(** The classes of the module. *)
Inductive klass : Type :=
| KBase | KIdentity | KBiased | KEOR | KReverse | KDescending | KMultiplier.

(** [cls.__name__]. *)
Definition __name__ (k : klass) : string :=
  match k with
  | KBase => "ContextManglerBase"
  | KIdentity => "ContextManglerIdentity"
  | KBiased => "ContextManglerBiased"
  | KEOR => "ContextManglerEOR"
  | KReverse => "ContextManglerReverse"
  | KDescending => "ContextManglerDescending"
  | KMultiplier => "ContextManglerMultiplier"
  end.

(** What [mangle] and [unmangle] read from [self]: the class of the object
    and the tunables of that class, either the class attribute or the
    instance attribute that [__init__] stored over it. *)
Inductive scheme : Type :=
| Base
| Identity
| Biased (base : Z)
| EOR (eor : Z)
| Reverse (nbits : Z)
| Descending (limit : Z)
| Multiplier (bias multiplier : Z).

(** A mangler object: what [self] is, and its [offset] attribute. *)
Record instance (A : Type) : Type := mkInstance { self : A; offset : Z }.
Arguments mkInstance {A} self offset.
Arguments self {A} i.
Arguments offset {A} i.

(** [ContextManglerBase]: the methods shared by every class.  [mangle] and
    [unmangle] are the methods the subclass supplies. *)
Module ContextManglerBase.
Section Methods.
Context {A : Type}.
Variables mangle unmangle : A -> Z -> result Z.

Definition __init__ (s : A) (context : Z) : result (instance A) :=
  if context =? 0 then Ok (mkInstance s 0)
  else if (context =? -1) || (context =? 0xFFFFFFFF) then Ok (mkInstance s (-1))
  else
    let context := if context <? 0 then context + Z.shiftl 1 32 else context in
    let* o := unmangle s context in
    Ok (mkInstance s o).

Definition __iadd__ (i : instance A) (value : Z) : instance A :=
  if offset i =? -1 then i
  else mkInstance (self i) (offset i + value).

Definition finish (i : instance A) : instance A := mkInstance (self i) (-1).

Definition opaque (i : instance A) : result Z :=
  if (offset i =? 0) || (offset i =? -1) then Ok (offset i)
  else mangle (self i) (offset i).
End Methods.

Definition mangle (offset : Z) : result Z :=
  Raise (mkExn NotImplementedError
           (format "{}.mangle is not implemented" [__name__ KBase])).

Definition unmangle (context : Z) : result Z :=
  Raise (mkExn NotImplementedError
           (format "{}.unmangle is not implemented" [__name__ KBase])).
End ContextManglerBase.

Module ContextManglerIdentity.
Definition mangle (offset : Z) : result Z := Ok offset.
Definition unmangle (context : Z) : result Z := Ok context.
End ContextManglerIdentity.

Module ContextManglerBiased.
Definition params : list string := ["Bias value to add to the opaque context"].
Definition base : Z := 0x76543.

Definition mangle (base offset : Z) : result Z := Ok (offset + base).

Definition unmangle (base context : Z) : result Z :=
  if (context >? 0) && (context <? base) then
    Raise (mkExn ValueError
             (format "Invalid context value {} for biased mangler"
                     [str_of_int context]))
  else Ok (context - base).
End ContextManglerBiased.

Module ContextManglerEOR.
Definition params : list string := ["EOR value to invert bits in the opaque context"].
Definition eor : Z := 0x76543.

Definition mangle (eor offset : Z) : result Z := Ok (1 + Z.lxor offset eor).
Definition unmangle (eor context : Z) : result Z := Ok (Z.lxor (context - 1) eor).
End ContextManglerEOR.

Module ContextManglerReverse.
Definition params : list string := ["Number of bits to reverse in the opaque context"].
Definition nbits : Z := 17.

(** The body of [for n in range(nbits)], run [n] times on the pair of
    local variables [(value, offset)]. *)
Fixpoint loop (n : nat) (value offset : Z) : Z * Z :=
  match n with
  | O => (value, offset)
  | S n' =>
      let value := Z.shiftl value 1 in
      let value := if negb (Z.land offset 1 =? 0) then Z.lor value 1 else value in
      let offset := Z.shiftr offset 1 in
      loop n' value offset
  end.

Definition mangle (nbits offset : Z) : result Z :=
  let '(value, offset) := loop (Z.to_nat nbits) 0 offset in
  let* high := py_shiftl offset nbits in
  Ok (Z.lor value high).

Definition unmangle (nbits context : Z) : result Z := mangle nbits context.
End ContextManglerReverse.

Module ContextManglerDescending.
Definition params : list string := ["Value from which the opaque value will descend"].
Definition limit : Z := 0x76543.

Definition mangle (limit offset : Z) : result Z :=
  let* low := py_mod offset limit in
  let* q := py_int_div offset limit in
  let high := q * limit in
  let low := limit - low in
  Ok (low + high + 1).

Definition unmangle (limit context : Z) : result Z :=
  let context := context - 1 in
  let* low := py_mod context limit in
  let* q := py_int_div context limit in
  let high := q * limit in
  let low := limit - low in
  Ok (low + high).
End ContextManglerDescending.

Module ContextManglerMultiplier.
Definition params : list string :=
  ["Multiplier for each offset"; "Base value to add to opaque value"].
Definition bias : Z := 0x3800000.
Definition multiplier : Z := 24.

Definition mangle (bias multiplier offset : Z) : result Z :=
  Ok (bias + offset * multiplier).

(** [context < 0 or context % multiplier != 0]: the remainder is taken
    only when the first test fails. *)
Definition unmangle (bias multiplier context : Z) : result Z :=
  let context := context - bias in
  let* invalid :=
    if context <? 0 then Ok true
    else let* r := py_mod context multiplier in Ok (negb (r =? 0)) in
  if invalid then
    Raise (mkExn ValueError
             (format "Invalid context value {} for multiplier mangler"
                     [str_of_int context]))
  else py_int_div context multiplier.
End ContextManglerMultiplier.

(** Method dispatch on the class of [self]. *)
Definition mangle (s : scheme) (offset : Z) : result Z :=
  match s with
  | Base => ContextManglerBase.mangle offset
  | Identity => ContextManglerIdentity.mangle offset
  | Biased base => ContextManglerBiased.mangle base offset
  | EOR eor => ContextManglerEOR.mangle eor offset
  | Reverse nbits => ContextManglerReverse.mangle nbits offset
  | Descending limit => ContextManglerDescending.mangle limit offset
  | Multiplier bias multiplier => ContextManglerMultiplier.mangle bias multiplier offset
  end.

Definition unmangle (s : scheme) (context : Z) : result Z :=
  match s with
  | Base => ContextManglerBase.unmangle context
  | Identity => ContextManglerIdentity.unmangle context
  | Biased base => ContextManglerBiased.unmangle base context
  | EOR eor => ContextManglerEOR.unmangle eor context
  | Reverse nbits => ContextManglerReverse.unmangle nbits context
  | Descending limit => ContextManglerDescending.unmangle limit context
  | Multiplier bias multiplier => ContextManglerMultiplier.unmangle bias multiplier context
  end.

(** The subclasses' [__init__]: each takes its tunables from the front of
    [args] ([int(args[0])] of an integer is that integer), keeps the class
    attribute for those not given, and calls the base [__init__], which
    ignores the remaining arguments. *)
Definition init_scheme (k : klass) (args : list Z) : scheme :=
  match k with
  | KBase => Base
  | KIdentity => Identity
  | KBiased =>
      Biased (match args with a :: _ => a | [] => ContextManglerBiased.base end)
  | KEOR =>
      EOR (match args with a :: _ => a | [] => ContextManglerEOR.eor end)
  | KReverse =>
      Reverse (match args with a :: _ => a | [] => ContextManglerReverse.nbits end)
  | KDescending =>
      Descending (match args with a :: _ => a | [] => ContextManglerDescending.limit end)
  | KMultiplier =>
      let multiplier :=
        match args with a :: _ => a | [] => ContextManglerMultiplier.multiplier end in
      let bias :=
        match args with _ :: b :: _ => b | _ => ContextManglerMultiplier.bias end in
      Multiplier bias multiplier
  end.

(** [k(context, *args)]: instantiating class [k]. *)
Definition new (k : klass) (context : Z) (args : list Z) : result (instance scheme) :=
  ContextManglerBase.__init__ unmangle (init_scheme k args) context.

Definition __iadd__ : instance scheme -> Z -> instance scheme :=
  ContextManglerBase.__iadd__.
Definition finish : instance scheme -> instance scheme :=
  ContextManglerBase.finish.
Definition opaque : instance scheme -> result Z :=
  ContextManglerBase.opaque mangle.

(** ** The registry *)

(** A class object as the registry sees it: which class it is, and its
    [name] attribute ([None] in [ContextManglerBase], inherited by every
    subclass until [register_context_mangler] assigns it). *)
Record class_obj : Type := mkClass { cls : klass; name : option string }.

Definition class_def (k : klass) : class_obj := mkClass k None.

(** [not name] for a value that is [None] or a string. *)
Definition not_name (n : option string) : bool :=
  match n with
  | None => true
  | Some s => String.eqb s EmptyString
  end.

(** The decorator: returns the class object, with [name] assigned when it
    had none, and the dictionary with the class stored under the
    lower-cased short name. *)
Definition register_context_mangler (mangler : class_obj)
    (manglers : gmap string class_obj) : class_obj * gmap string class_obj :=
  let '(name, mangler) :=
    if not_name (name mangler) then
      let name := __name__ (cls mangler) in
      let mangler := mkClass (cls mangler) (Some name) in
      let name :=
        if String.eqb (slice_to 14 name) "ContextMangler" then slice_from 14 name
        else name in
      (name, mangler)
    else (default EmptyString (name mangler), mangler) in
  (mangler, <[lower name := mangler]> manglers).

(** The classes carrying the decorator, in the order the module defines
    them. *)
Definition decorated : list klass :=
  [KIdentity; KBiased; KEOR; KReverse; KDescending; KMultiplier].

(** The [manglers] dictionary once the module is imported: it starts
    empty and each decorated class definition registers itself. *)
Definition manglers : gmap string class_obj :=
  fold_left (fun m k => snd (register_context_mangler (class_def k) m))
            decorated ∅.

Section Registry.
Variable manglers : gmap string class_obj.

Definition find_context_mangler (name : string) : result class_obj :=
  match manglers !! lower name with
  | Some mangler => Ok mangler
  | None =>
      Raise (mkExn ValueError (format "Context mangler '{}' is not known" [name]))
  end.

Definition create_context_mangler (name : string) (opaque : Z) (args : list Z)
  : result (instance scheme) :=
  let* mangler := find_context_mangler name in
  new (cls mangler) opaque args.

(** The sort key [mangler.name]; every class in the dictionary has had
    its name assigned by the decorator. *)
Definition name_key (mangler : class_obj) : string :=
  default EmptyString (name mangler).

Definition list_context_manglers : list class_obj :=
  sorted name_key (map snd (map_to_list manglers)).

(** [ConfigurationError] is the name the module's first lines bind:
    the class of [pyromaniac.config] or [ValueError]. *)
Variable ConfigurationError : exn_class.

Definition ContextManglerName (value : string) : result string :=
  match manglers !! value with
  | Some _ => Ok value
  | None =>
      Raise (mkExn ConfigurationError
               (format "Context mangler '{}' is not valid. Known manglers: {}"
                       [value; join ", " (sorted id (map fst (map_to_list manglers)))]))
  end.
End Registry.

(** ** The smoke test of [test_contextmangler.py] *)

(** [range(n)]. *)
Definition range (n : nat) : list Z := map Z.of_nat (seq 0 n).

(** The [assert] statement. *)
Definition py_assert (b : bool) : result unit :=
  if b then Ok tt else Raise (mkExn AssertionError EmptyString).

(** The inner loop, over the steps still to run; printing is left out. *)
Fixpoint test_steps (mangler : klass) (context : instance scheme) (steps : list Z)
  : result unit :=
  match steps with
  | [] => Ok tt
  | step :: steps' =>
      let o := offset context in
      let* _ := py_assert (o =? step) in
      let* op := opaque context in
      let* newcontext := new mangler op [] in
      let* _ := py_assert (offset newcontext =? offset context) in
      test_steps mangler (__iadd__ context 1) steps'
  end.

Fixpoint test_manglers (l : list class_obj) : result unit :=
  match l with
  | [] => Ok tt
  | mangler :: l' =>
      let* context := new (cls mangler) 0 [] in
      let* _ := test_steps (cls mangler) context (range 8) in
      test_manglers l'
  end.

Definition test : result unit := test_manglers (list_context_manglers manglers).

(** ** Properties *)

(** [unmangle(mangle(o)) == o], both calls returning. *)
Definition round_trip (s : scheme) (o : Z) : Prop :=
  bind (mangle s o) (unmangle s) = Ok o.

(** An enumeration in progress: calls of [+=] and of [finish]. *)
Inductive op : Type :=
| Advance (delta : Z)
| Finish.

Definition apply_op (i : instance scheme) (o : op) : instance scheme :=
  match o with
  | Advance delta => __iadd__ i delta
  | Finish => finish i
  end.

(** The object after each call of [ops], oldest first. *)
Fixpoint trace (i : instance scheme) (ops : list op) : list (instance scheme) :=
  match ops with
  | [] => []
  | o :: ops' => let i' := apply_op i o in i' :: trace i' ops'
  end.

Definition nonneg_delta (o : op) : Prop :=
  match o with
  | Advance delta => 0 <= delta
  | Finish => True
  end.

(** Tunables in the range the defaults are taken from: a non-negative EOR
    mask, a positive limit and a positive multiplier. *)
Definition params_ok (s : scheme) : Prop :=
  match s with
  | EOR eor => 0 <= eor
  | Descending limit => 0 < limit
  | Multiplier _ multiplier => 0 < multiplier
  | _ => True
  end.

Definition valid_offset (o : Z) : Prop := 0 <= o \/ o = -1.

(** *** Arithmetic of the individual schemes *)

Lemma py_mod_pos a b : 0 < b -> py_mod a b = Ok (a mod b).
Proof.
  intros Hb. unfold py_mod.
  destruct (Z.eqb_spec b 0); [lia | reflexivity].
Qed.

Lemma py_int_div_pos a b : 0 <= a -> 0 < b -> py_int_div a b = Ok (a / b).
Proof.
  intros Ha Hb. unfold py_int_div.
  destruct (Z.eqb_spec b 0); [lia |].
  now rewrite Z.quot_div_nonneg.
Qed.

Lemma Identity_round_trip o : round_trip Identity o.
Proof. reflexivity. Qed.

Lemma Biased_round_trip base o : 0 <= o -> round_trip (Biased base) o.
Proof.
  intros Ho. unfold round_trip. cbn.
  unfold ContextManglerBiased.unmangle.
  replace (o + base <? base) with false by (symmetry; apply Z.ltb_ge; lia).
  rewrite andb_false_r. f_equal. lia.
Qed.

Lemma EOR_round_trip eor o : round_trip (EOR eor) o.
Proof.
  unfold round_trip. cbn. unfold ContextManglerEOR.unmangle. f_equal.
  replace (1 + Z.lxor o eor - 1) with (Z.lxor o eor) by lia.
  now rewrite Z.lxor_assoc, Z.lxor_nilpotent, Z.lxor_0_r.
Qed.

Lemma Descending_round_trip limit o :
  0 < limit -> 0 <= o -> o mod limit <> 0 -> round_trip (Descending limit) o.
Proof.
  intros Hl Ho Hr. unfold round_trip, mangle, unmangle.
  unfold ContextManglerDescending.mangle, ContextManglerDescending.unmangle.
  pose proof (Z.mod_pos_bound o limit Hl) as Hb.
  pose proof (Z.div_pos o limit Ho Hl) as Hq.
  rewrite py_mod_pos, py_int_div_pos by lia. cbn [bind].
  replace (limit - o mod limit + o / limit * limit + 1 - 1)
    with ((limit - o mod limit) + o / limit * limit) by lia.
  rewrite py_mod_pos, py_int_div_pos by nia. cbn [bind].
  rewrite Z.mod_add, Z.div_add by lia.
  rewrite Z.mod_small, Z.div_small by lia.
  f_equal. pose proof (Z.div_mod o limit). lia.
Qed.

Lemma Multiplier_round_trip bias multiplier o :
  0 < multiplier -> 0 <= o -> round_trip (Multiplier bias multiplier) o.
Proof.
  intros Hm Ho. unfold round_trip, mangle, unmangle.
  unfold ContextManglerMultiplier.mangle, ContextManglerMultiplier.unmangle.
  cbn [bind].
  replace (bias + o * multiplier - bias) with (o * multiplier) by lia.
  replace (o * multiplier <? 0) with false by (symmetry; apply Z.ltb_ge; nia).
  rewrite py_mod_pos by lia. cbn [bind].
  rewrite Z.mod_mul by lia. cbn [Z.eqb negb].
  rewrite py_int_div_pos by nia.
  now rewrite Z.div_mul by lia.
Qed.

(** *** Bit reversal *)

Lemma land_1_testbit o : negb (Z.land o 1 =? 0) = Z.testbit o 0.
Proof.
  change 1 with (Z.ones 1) at 1. rewrite Z.land_ones by lia.
  change (2 ^ 1) with 2. rewrite <- (Z.bit0_mod o).
  now destruct (Z.testbit o 0).
Qed.

Lemma loop_offset n : forall value offset,
  snd (ContextManglerReverse.loop n value offset) = Z.shiftr offset (Z.of_nat n).
Proof.
  induction n as [|n IH]; intros value offset.
  - cbn. now rewrite Z.shiftr_0_r.
  - cbn [ContextManglerReverse.loop]. rewrite IH, Z.shiftr_shiftr by lia.
    f_equal. lia.
Qed.

Lemma loop_value_bits n : forall value offset i, 0 <= i ->
  Z.testbit (fst (ContextManglerReverse.loop n value offset)) i =
  if i <? Z.of_nat n then Z.testbit offset (Z.of_nat n - 1 - i)
  else Z.testbit value (i - Z.of_nat n).
Proof.
  induction n as [|n IH]; intros value offset i Hi.
  - cbn [ContextManglerReverse.loop fst]. change (Z.of_nat 0) with 0.
    destruct (Z.ltb_spec i 0); [lia |]. now rewrite Z.sub_0_r.
  - cbn [ContextManglerReverse.loop]. rewrite IH by assumption.
    rewrite land_1_testbit, Nat2Z.inj_succ.
    destruct (Z.ltb_spec i (Z.of_nat n)) as [Hlt | Hge].
    + destruct (Z.ltb_spec i (Z.succ (Z.of_nat n))); [| lia].
      rewrite Z.shiftr_spec by lia. f_equal. lia.
    + destruct (Z.ltb_spec i (Z.succ (Z.of_nat n))) as [Hlt' | Hge'].
      * replace (i - Z.of_nat n) with 0 by lia.
        replace (Z.succ (Z.of_nat n) - 1 - i) with 0 by lia.
        destruct (Z.testbit offset 0).
        -- rewrite Z.lor_spec, Z.shiftl_spec_low by lia. reflexivity.
        -- now rewrite Z.shiftl_spec_low by lia.
      * assert (Hone : Z.testbit 1 (i - Z.of_nat n) = false).
        { change 1 with (2 ^ 0). rewrite Z.pow2_bits_eqb by lia.
          apply Z.eqb_neq. lia. }
        destruct (Z.testbit offset 0).
        -- rewrite Z.lor_spec, Hone, orb_false_r, Z.shiftl_spec by lia.
           f_equal. lia.
        -- rewrite Z.shiftl_spec by lia. f_equal. lia.
Qed.

(** Bit [i] of the mangled value: the low [nbits] bits are mirrored, the
    others stay. *)
Lemma Reverse_mangle_bits nbits o :
  0 <= nbits ->
  exists c, ContextManglerReverse.mangle nbits o = Ok c /\
    forall i, 0 <= i ->
      Z.testbit c i = if i <? nbits then Z.testbit o (nbits - 1 - i) else Z.testbit o i.
Proof.
  intros Hn. unfold ContextManglerReverse.mangle.
  pose proof (loop_offset (Z.to_nat nbits) 0 o) as Hoff.
  pose proof (loop_value_bits (Z.to_nat nbits) 0 o) as Hval.
  destruct (ContextManglerReverse.loop (Z.to_nat nbits) 0 o) as [value offset].
  cbn [fst snd] in Hoff, Hval. rewrite Z2Nat.id in Hoff, Hval by assumption.
  unfold py_shiftl. destruct (Z.ltb_spec nbits 0); [lia |]. cbn [bind].
  eexists. split; [reflexivity |]. intros i Hi.
  rewrite Z.lor_spec, Hval, Hoff by assumption.
  destruct (Z.ltb_spec i nbits).
  - now rewrite Z.shiftl_spec_low, orb_false_r by assumption.
  - rewrite Z.bits_0, Z.shiftl_spec, Z.shiftr_spec by lia. cbn.
    f_equal. lia.
Qed.

Lemma Reverse_involution nbits o :
  0 <= nbits ->
  exists c, mangle (Reverse nbits) o = Ok c /\ mangle (Reverse nbits) c = Ok o.
Proof.
  intros Hn. cbn [mangle].
  destruct (Reverse_mangle_bits nbits o Hn) as (c & Hc & Hbits).
  destruct (Reverse_mangle_bits nbits c Hn) as (d & Hd & Hbits').
  exists c. split; [assumption |]. rewrite Hd. f_equal.
  apply Z.bits_inj'. intros i Hi. rewrite Hbits' by assumption.
  destruct (Z.ltb_spec i nbits) as [Hlt | Hge].
  - rewrite Hbits by lia.
    destruct (Z.ltb_spec (nbits - 1 - i) nbits); [| lia]. f_equal. lia.
  - rewrite Hbits by lia. destruct (Z.ltb_spec i nbits); [lia | reflexivity].
Qed.

Lemma Reverse_round_trip nbits o : 0 <= nbits -> round_trip (Reverse nbits) o.
Proof.
  intros Hn. unfold round_trip.
  destruct (Reverse_involution nbits o Hn) as (c & Hc & Hback).
  rewrite Hc. exact Hback.
Qed.

Lemma Reverse_mangle_nonneg nbits o c :
  0 <= o -> ContextManglerReverse.mangle nbits o = Ok c -> 0 <= c.
Proof.
  intros Ho Hc. destruct (Z.ltb_spec nbits 0) as [Hneg | Hn].
  - unfold ContextManglerReverse.mangle, py_shiftl in Hc.
    destruct (ContextManglerReverse.loop (Z.to_nat nbits) 0 o).
    destruct (Z.ltb_spec nbits 0); [discriminate | lia].
  - destruct (Reverse_mangle_bits nbits o Hn) as (c' & Hc' & Hbits).
    rewrite Hc in Hc'. injection Hc' as <-.
    apply Z.bits_iff_nonneg_ex.
    apply Z.bits_iff_nonneg_ex in Ho as [k Hk].
    exists (Z.max k nbits). intros m Hm. rewrite Hbits by lia.
    destruct (Z.ltb_spec m nbits); [lia |]. apply Hk. lia.
Qed.

(** *** Offsets stay valid *)

Lemma unmangle_nonneg s c o :
  params_ok s -> 0 < c -> unmangle s c = Ok o -> 0 <= o.
Proof.
  intros Hs Hc Hu. destruct s as [| | base | eor | nbits | limit | bias multiplier];
    cbn [unmangle params_ok] in Hu, Hs.
  - discriminate.
  - injection Hu as <-. lia.
  - unfold ContextManglerBiased.unmangle in Hu.
    destruct (Z.gtb_spec c 0); [| lia].
    destruct (Z.ltb_spec c base); cbn [andb] in Hu; [discriminate |].
    injection Hu as <-. lia.
  - injection Hu as <-. apply Z.lxor_nonneg. lia.
  - apply (Reverse_mangle_nonneg nbits c); [lia | exact Hu].
  - unfold ContextManglerDescending.unmangle in Hu.
    rewrite py_mod_pos, py_int_div_pos in Hu by lia. cbn [bind] in Hu.
    injection Hu as <-.
    pose proof (Z.mod_pos_bound (c - 1) limit Hs).
    assert (0 <= (c - 1) / limit) by (apply Z.div_pos; lia). nia.
  - unfold ContextManglerMultiplier.unmangle in Hu.
    destruct (Z.ltb_spec (c - bias) 0); cbn [bind] in Hu; [discriminate |].
    rewrite py_mod_pos in Hu by assumption. cbn [bind] in Hu.
    destruct (negb ((c - bias) mod multiplier =? 0)); [discriminate |].
    rewrite py_int_div_pos in Hu by assumption.
    injection Hu as <-. apply Z.div_pos; lia.
Qed.

Lemma new_valid_offset k v args i :
  params_ok (init_scheme k args) -> - 2 ^ 31 <= v < 2 ^ 32 ->
  new k v args = Ok i -> valid_offset (offset i).
Proof.
  intros Hs Hv Hnew. unfold new, ContextManglerBase.__init__ in Hnew.
  destruct (Z.eqb_spec v 0); [injection Hnew as <-; left; cbn; lia |].
  destruct ((v =? -1) || (v =? 0xFFFFFFFF)); [injection Hnew as <-; now right |].
  destruct (unmangle _ _) as [o |] eqn:Hu; cbn [bind] in Hnew; [| discriminate].
  injection Hnew as <-. left. cbn [offset].
  apply (unmangle_nonneg _ _ _ Hs) in Hu; [assumption |].
  change (Z.shiftl 1 32) with (2 ^ 32). destruct (Z.ltb_spec v 0); lia.
Qed.

Lemma apply_op_valid i o :
  nonneg_delta o -> valid_offset (offset i) -> valid_offset (offset (apply_op i o)).
Proof.
  intros Ho Hi. destruct o as [delta |]; cbn in *.
  - unfold __iadd__, ContextManglerBase.__iadd__.
    destruct (Z.eqb_spec (offset i) (-1)); [assumption |].
    left. cbn. destruct Hi; lia.
  - now right.
Qed.

Lemma trace_valid ops : forall i,
  Forall nonneg_delta ops -> valid_offset (offset i) ->
  Forall (fun j => valid_offset (offset j)) (trace i ops).
Proof.
  induction ops as [| o ops IH]; intros i Hops Hi; cbn [trace].
  - constructor.
  - inversion Hops as [| ? ? Ho Hops']; subst.
    pose proof (apply_op_valid i o Ho Hi) as Hi'.
    constructor; [exact Hi' | now apply IH].
Qed.

(** *** The terminal state *)

Lemma apply_op_terminal i o : offset i = -1 -> offset (apply_op i o) = -1.
Proof.
  intros Hi. destruct o as [delta |]; cbn; [| reflexivity].
  unfold __iadd__, ContextManglerBase.__iadd__. now rewrite Hi.
Qed.

Lemma opaque_terminal i : offset i = -1 -> opaque i = Ok (-1).
Proof.
  intros Hi. unfold opaque, ContextManglerBase.opaque. now rewrite Hi.
Qed.

Lemma finish_terminal (i : instance scheme) : offset (finish i) = -1.
Proof. reflexivity. Qed.

(** The base [__init__] on the reserved values, whatever the subclass
    supplies as [unmangle]; [opaque] on the resulting objects, whatever it
    supplies as [mangle]. *)
Section Sentinels.
Context {A : Type}.
Variables (mangle' unmangle' : A -> Z -> result Z) (s : A).

Lemma init_start :
  ContextManglerBase.__init__ unmangle' s 0 = Ok (mkInstance s 0).
Proof. reflexivity. Qed.

Lemma init_minus_one :
  ContextManglerBase.__init__ unmangle' s (-1) = Ok (mkInstance s (-1)).
Proof. reflexivity. Qed.

Lemma init_all_ones :
  ContextManglerBase.__init__ unmangle' s 0xFFFFFFFF = Ok (mkInstance s (-1)).
Proof. reflexivity. Qed.

Lemma opaque_start : ContextManglerBase.opaque mangle' (mkInstance s 0) = Ok 0.
Proof. reflexivity. Qed.

Lemma opaque_end : ContextManglerBase.opaque mangle' (mkInstance s (-1)) = Ok (-1).
Proof. reflexivity. Qed.
End Sentinels.

(** *** The registry after import *)

(** The keys of [manglers]. *)
Definition known_names : list string :=
  ["biased"; "descending"; "eor"; "identity"; "multiplier"; "reverse"].

Definition registered (k : klass) : class_obj := mkClass k (Some (__name__ k)).

Lemma manglers_inserts :
  manglers =
  <["multiplier" := registered KMultiplier]>
    (<["descending" := registered KDescending]>
       (<["reverse" := registered KReverse]>
          (<["eor" := registered KEOR]>
             (<["biased" := registered KBiased]>
                (<["identity" := registered KIdentity]> ∅))))).
Proof. reflexivity. Qed.

Lemma manglers_lookup_is_Some (s : string) :
  is_Some (manglers !! s) <-> s ∈ known_names.
Proof.
  rewrite manglers_inserts. unfold known_names.
  rewrite !lookup_insert_is_Some, !elem_of_cons, elem_of_nil.
  pose proof (lookup_empty_is_Some (M := gmap string) (A := class_obj) s).
  split.
  - intros Hs.
    repeat (destruct Hs as [<- | [_ Hs]];
            [repeat (first [left; reflexivity | right]); reflexivity |]).
    contradiction.
  - intros [-> | [-> | [-> | [-> | [-> | [-> | []]]]]]];
      repeat (first [left; reflexivity | right; split; [discriminate |]]).
Qed.

Lemma known_manglers_text :
  join ", " (sorted id (map fst (map_to_list manglers))) =
  "biased, descending, eor, identity, multiplier, reverse".
Proof. vm_compute. reflexivity. Qed.

Lemma list_context_manglers_eq :
  list_context_manglers manglers =
  [registered KBiased; registered KDescending; registered KEOR;
   registered KIdentity; registered KMultiplier; registered KReverse].
Proof. vm_compute. reflexivity. Qed.

Lemma lower_ascii_idem c : lower_ascii (lower_ascii c) = lower_ascii c.
Proof.
  destruct c as [[] [] [] [] [] [] [] []]; reflexivity.
Qed.

Lemma lower_idem s : lower (lower s) = lower s.
Proof.
  induction s as [| c s IH]; cbn; [reflexivity |].
  now rewrite lower_ascii_idem, IH.
Qed.

Definition returned {A : Type} (r : result A) : option A :=
  match r with Ok a => Some a | Raise _ => None end.

(** ** The specification's claims *)

(** C1 does not hold of the code, by a defect of the Descending scheme:
    its [unmangle] mirrors [mangle] but misses the inverse whenever
    [context - 1] is a multiple of the limit.  With the default limit,
    offset 0 is mangled to [limit + 1 = 484676] and that value is
    unmangled to [2 * limit = 969350], so [unmangle(mangle(0))] is not 0,
    while the five other schemes return 0. *)
Lemma round_trip_fails_at_zero :
  mangle (init_scheme KDescending []) 0 = Ok 484676 /\
  unmangle (init_scheme KDescending []) 484676 = Ok 969350 /\
  ~ (forall k o, In k decorated -> 0 <= o < 10000 ->
                 round_trip (init_scheme k []) o).
Proof.
  split; [reflexivity |]. split; [reflexivity |].
  intros H. specialize (H KDescending 0).
  assert (Hin : In KDescending decorated) by (cbn; tauto).
  specialize (H Hin ltac:(lia)). vm_compute in H. discriminate.
Qed.

(** Everywhere else in that range the round trip holds: for each of the
    six registered schemes with its default parameters and every offset
    [o] with [0 <= o < 10000], offset 0 of the Descending scheme excepted,
    [unmangle(mangle(o)) == o]. *)
Theorem round_trip_default_schemes (k : klass) (o : Z) :
  In k decorated -> 0 <= o < 10000 -> (k = KDescending -> o <> 0) ->
  round_trip (init_scheme k []) o.
Proof.
  intros Hk Ho Hzero. cbn in Hk.
  destruct Hk as [<- | [<- | [<- | [<- | [<- | [<- | []]]]]]]; cbn [init_scheme].
  - apply Identity_round_trip.
  - apply Biased_round_trip. lia.
  - apply EOR_round_trip.
  - apply Reverse_round_trip. unfold ContextManglerReverse.nbits. lia.
  - unfold ContextManglerDescending.limit.
    apply Descending_round_trip; [lia | lia |].
    rewrite Z.mod_small by lia. now apply Hzero.
  - unfold ContextManglerMultiplier.multiplier.
    apply Multiplier_round_trip; lia.
Qed.

Lemma round_trip_default_schemes_witness :
  In KDescending decorated /\ 0 <= 9999 < 10000 /\
  round_trip (init_scheme KDescending []) 9999.
Proof.
  assert (Hin : In KDescending decorated) by (cbn; tauto).
  split; [exact Hin |]. split; [lia |].
  apply (round_trip_default_schemes KDescending 9999 Hin); [lia |].
  intros _. discriminate.
Defined.

(** C2: for every class and every argument list, constructing from 0
    gives offset 0, constructing from -1 or from 0xFFFFFFFF gives offset
    -1, and [opaque] then reads 0 and -1 whatever function stands for the
    class's [mangle]: it is not called. *)
Theorem sentinel_invariance (k : klass) (args : list Z) :
  (exists i, new k 0 args = Ok i /\ offset i = 0 /\ opaque i = Ok 0 /\
     forall m, ContextManglerBase.opaque m i = Ok 0) /\
  (exists i, new k (-1) args = Ok i /\ offset i = -1 /\ opaque i = Ok (-1) /\
     forall m, ContextManglerBase.opaque m i = Ok (-1)) /\
  (exists i, new k 0xFFFFFFFF args = Ok i /\ offset i = -1 /\ opaque i = Ok (-1) /\
     forall m, ContextManglerBase.opaque m i = Ok (-1)).
Proof.
  unfold new, opaque. repeat split.
  - exists (mkInstance (init_scheme k args) 0).
    split; [apply init_start |]. repeat split; intros; apply opaque_start.
  - exists (mkInstance (init_scheme k args) (-1)).
    split; [apply init_minus_one |]. repeat split; intros; apply opaque_end.
  - exists (mkInstance (init_scheme k args) (-1)).
    split; [apply init_all_ones |]. repeat split; intros; apply opaque_end.
Qed.

(** C5: an object whose offset is -1, whether a sentinel or [finish] put
    it there, keeps offset -1 through any further calls of [+=] (and of
    [finish]), and its [opaque] reads -1 at each point. *)
Theorem terminal_absorption (i : instance scheme) (ops : list op) :
  offset i = -1 ->
  Forall (fun j => offset j = -1 /\ opaque j = Ok (-1)) (i :: trace i ops).
Proof.
  intros Hi. constructor; [split; [assumption | now apply opaque_terminal] |].
  revert i Hi. induction ops as [| o ops IH]; intros i Hi; cbn [trace].
  - constructor.
  - pose proof (apply_op_terminal i o Hi) as Hi'.
    constructor; [split; [assumption | now apply opaque_terminal] |].
    now apply IH.
Qed.

Lemma terminal_absorption_witness :
  Forall (fun j => offset j = -1 /\ opaque j = Ok (-1))
    (let i := finish (mkInstance (EOR 5) 7) in
     i :: trace i [Advance 3; Advance (-4); Advance 1]) /\
  Forall (fun j => offset j = -1 /\ opaque j = Ok (-1))
    (let i := mkInstance (Descending 9) (-1) in
     i :: trace i [Advance 1; Advance 1]) /\
  new KDescending 0xFFFFFFFF [9] = Ok (mkInstance (Descending 9) (-1)).
Proof.
  split; [| split].
  - apply (terminal_absorption (finish (mkInstance (EOR 5) 7))). reflexivity.
  - apply (terminal_absorption (mkInstance (Descending 9) (-1))). reflexivity.
  - reflexivity.
Defined.

(** C8, as stated, fails: a negative delta takes the offset below -1. *)
Lemma negative_delta_breaks_offset :
  ~ (forall k v args i ops, new k v args = Ok i ->
       Forall (fun j => valid_offset (offset j)) (i :: trace i ops)).
Proof.
  intros H.
  specialize (H KIdentity 0 [] (mkInstance Identity 0) [Advance (-2)] eq_refl).
  inversion H as [| ? ? _ Htl]; subst.
  inversion Htl as [| ? ? Hbad _]; subst.
  cbn in Hbad. destruct Hbad; lia.
Qed.

(** C8 (amended): for every class whose tunables are in range (mask >= 0,
    limit > 0, multiplier > 0, as the defaults are), every 32-bit opaque
    value the constructor accepts, and every sequence of [+=] calls with
    non-negative deltas and of [finish] calls, the offset is at all times
    either >= 0 or exactly -1. *)
Theorem offset_stays_valid (k : klass) (v : Z) (args : list Z)
    (i : instance scheme) (ops : list op) :
  params_ok (init_scheme k args) -> - 2 ^ 31 <= v < 2 ^ 32 ->
  new k v args = Ok i -> Forall nonneg_delta ops ->
  Forall (fun j => valid_offset (offset j)) (i :: trace i ops).
Proof.
  intros Hs Hv Hnew Hops.
  pose proof (new_valid_offset k v args i Hs Hv Hnew) as Hi.
  constructor; [exact Hi | now apply trace_valid].
Qed.

Lemma offset_stays_valid_witness :
  new KMultiplier (0x3800000 + 48) [] = Ok (mkInstance (Multiplier 0x3800000 24) 2) /\
  Forall (fun j => valid_offset (offset j))
    (let i := mkInstance (Multiplier 0x3800000 24) 2 in
     i :: trace i [Advance 3; Advance 0; Finish; Advance 5]).
Proof.
  split; [reflexivity |].
  apply (offset_stays_valid KMultiplier (0x3800000 + 48) []).
  - exact (Z.lt_0_1).
  - split; [discriminate | reflexivity].
  - reflexivity.
  - repeat constructor; discriminate.
Defined.

(** C9: with the default 17 bits, [mangle(mangle(o)) == o] for every
    offset [o >= 0], and [unmangle] is the same operation as [mangle]. *)
Theorem Reverse_default_involution (o : Z) :
  0 <= o ->
  (exists c, mangle (init_scheme KReverse []) o = Ok c /\
             mangle (init_scheme KReverse []) c = Ok o) /\
  (forall c, unmangle (init_scheme KReverse []) c = mangle (init_scheme KReverse []) c).
Proof.
  intros _. split; [| reflexivity].
  apply Reverse_involution. unfold ContextManglerReverse.nbits. lia.
Qed.

Lemma Reverse_default_involution_witness :
  mangle (init_scheme KReverse []) 5 = Ok 81920 /\
  (exists c, mangle (init_scheme KReverse []) 5 = Ok c /\
             mangle (init_scheme KReverse []) c = Ok 5).
Proof.
  split; [reflexivity |].
  apply (Reverse_default_involution 5). discriminate.
Defined.

(** What the smoke test asserts of one class: from opaque 0, after [step]
    calls of [+= 1] ([step] from 0 to 7) the offset is [step], and a fresh
    object of the class built from the current [opaque] has that offset. *)
Definition advance_consistent (k : klass) : Prop :=
  exists context0, new k 0 [] = Ok context0 /\
    Forall (fun step =>
              let context := fold_left __iadd__ (repeat 1 step) context0 in
              offset context = Z.of_nat step /\
              exists o newcontext,
                opaque context = Ok o /\ new k o [] = Ok newcontext /\
                offset newcontext = offset context)
           (seq 0 8).

Ltac check_step :=
  cbn beta zeta; split;
  [ reflexivity
  | eexists; eexists; split;
    [ vm_compute; reflexivity
    | split; [vm_compute; reflexivity | reflexivity] ] ].

Ltac check_class :=
  eexists; split;
  [ reflexivity
  | cbn [seq]; repeat (apply List.Forall_cons; [check_step |]);
    apply List.Forall_nil ].

(** C3: each of the six registered classes, with default parameters, goes
    through offsets 0,1,...,7 under [+= 1] from opaque 0, a fresh object
    built from each intermediate opaque value has the same offset, and the
    repository's smoke test passes. *)
Theorem advance_consistency :
  Forall (fun mangler => advance_consistent (cls mangler))
         (list_context_manglers manglers) /\
  map cls (list_context_manglers manglers) =
    [KBiased; KDescending; KEOR; KIdentity; KMultiplier; KReverse] /\
  test = Ok tt.
Proof.
  split; [| split].
  - rewrite list_context_manglers_eq.
    repeat (apply List.Forall_cons; [check_class |]). apply List.Forall_nil.
  - now rewrite list_context_manglers_eq.
  - vm_compute. reflexivity.
Qed.

(** C4: a default Biased object cannot be built from opaque 1, and a
    default Multiplier object cannot be built from an opaque [v] with
    [0 < v < 0xFFFFFFFF] that is not congruent to the bias modulo the
    multiplier: both constructions raise the invalid-context
    [ValueError]. *)
Theorem invalid_context_rejected (v : Z) :
  0 < v < 0xFFFFFFFF ->
  v mod ContextManglerMultiplier.multiplier <>
    ContextManglerMultiplier.bias mod ContextManglerMultiplier.multiplier ->
  new KBiased 1 [] =
    Raise (mkExn ValueError "Invalid context value 1 for biased mangler") /\
  new KMultiplier v [] =
    Raise (mkExn ValueError
             (format "Invalid context value {} for multiplier mangler"
                     [str_of_int (v - ContextManglerMultiplier.bias)])).
Proof.
  intros Hv Hres. split; [reflexivity |].
  unfold new, ContextManglerBase.__init__.
  destruct (Z.eqb_spec v 0); [lia |].
  destruct (Z.eqb_spec v (-1)); [lia |].
  destruct (Z.eqb_spec v 0xFFFFFFFF); [lia |]. cbn [orb].
  destruct (Z.ltb_spec v 0); [lia |].
  cbn [init_scheme unmangle]. unfold ContextManglerMultiplier.unmangle.
  destruct (Z.ltb_spec (v - ContextManglerMultiplier.bias) 0); [reflexivity |].
  unfold ContextManglerMultiplier.multiplier, ContextManglerMultiplier.bias in *.
  rewrite py_mod_pos by lia. cbn [bind].
  destruct (Z.eqb_spec ((v - 0x3800000) mod 24) 0) as [Hz |]; [| reflexivity].
  exfalso. apply Hres. revert Hz. generalize 0x3800000. intros b Hz.
  pose proof (Z.div_mod (v - b) 24 ltac:(lia)) as H1.
  pose proof (Z.div_mod v 24 ltac:(lia)) as H2.
  pose proof (Z.div_mod b 24 ltac:(lia)) as H3.
  pose proof (Z.mod_pos_bound v 24 ltac:(lia)).
  pose proof (Z.mod_pos_bound b 24 ltac:(lia)).
  lia.
Qed.

Lemma invalid_context_rejected_witness :
  0 < 0x3800001 < 0xFFFFFFFF /\
  new KMultiplier 0x3800001 [] =
    Raise (mkExn ValueError "Invalid context value 1 for multiplier mangler").
Proof.
  split; [split; reflexivity |].
  apply (invalid_context_rejected 0x3800001).
  - split; reflexivity.
  - discriminate.
Defined.

(** C6: [find_context_mangler] ignores the case of the name, so "IDENTITY"
    and "identity" give the same class; "nope" raises the not-known
    [ValueError]; [list_context_manglers] returns the six decorated
    classes, each once, in increasing order of their [name]. *)
Theorem registry_lookup :
  find_context_mangler manglers "IDENTITY" = Ok (registered KIdentity) /\
  find_context_mangler manglers "identity" = Ok (registered KIdentity) /\
  (forall s, returned (find_context_mangler manglers s) =
             returned (find_context_mangler manglers (lower s))) /\
  find_context_mangler manglers "nope" =
    Raise (mkExn ValueError "Context mangler 'nope' is not known") /\
  list_context_manglers manglers =
    [registered KBiased; registered KDescending; registered KEOR;
     registered KIdentity; registered KMultiplier; registered KReverse] /\
  Permutation (map cls (list_context_manglers manglers)) decorated /\
  StronglySorted (fun a b => String.ltb (name_key a) (name_key b) = true)
                 (list_context_manglers manglers).
Proof.
  split; [reflexivity |]. split; [reflexivity |].
  split.
  { intros s. unfold find_context_mangler. rewrite lower_idem.
    now destruct (manglers !! lower s). }
  split; [reflexivity |].
  split; [apply list_context_manglers_eq |].
  rewrite list_context_manglers_eq. split.
  - cbn [map cls registered]. unfold decorated.
    apply (Permutation_cons_app [KIdentity] [KEOR; KReverse; KDescending; KMultiplier]).
    apply (Permutation_cons_app [KIdentity; KEOR; KReverse] [KMultiplier]).
    apply (Permutation_cons_app [KIdentity] [KReverse; KMultiplier]).
    cbn [app]. apply perm_skip, perm_swap.
  - repeat (apply SSorted_cons; [| repeat (apply List.Forall_cons; [reflexivity |]);
                                    apply List.Forall_nil]).
    apply SSorted_nil.
Qed.

(** C7, as stated, fails: the validator looks the value up as it is, so it
    rejects "IDENTITY", which [find_context_mangler] accepts. *)
Lemma validator_rejects_upper_case :
  ContextManglerName manglers ValueError "IDENTITY" =
    Raise (mkExn ValueError
             "Context mangler 'IDENTITY' is not valid. Known manglers: biased, descending, eor, identity, multiplier, reverse") /\
  is_ok (find_context_mangler manglers "IDENTITY") = true /\
  ~ (forall s, ContextManglerName manglers ValueError s = Ok s <->
               is_ok (find_context_mangler manglers s) = true).
Proof.
  split; [vm_compute; reflexivity |]. split; [reflexivity |].
  intros H. destruct (H "IDENTITY") as [_ Hback].
  specialize (Hback eq_refl). vm_compute in Hback. discriminate.
Qed.

(** C7 (amended): the validator returns the value unchanged exactly when
    it is, letter for letter, one of the keys of the registry (the
    lower-cased names), and otherwise raises [ConfigurationError] with a
    message listing all the known names; every value it accepts is also
    found by [find_context_mangler]. *)
Theorem ContextManglerName_exact (ConfigurationError : exn_class) (value : string) :
  ContextManglerName manglers ConfigurationError value =
    (if bool_decide (value ∈ known_names) then Ok value
     else Raise (mkExn ConfigurationError
                   (format "Context mangler '{}' is not valid. Known manglers: {}"
                           [value;
                            "biased, descending, eor, identity, multiplier, reverse"]))) /\
  implb (bool_decide (value ∈ known_names))
        (is_ok (find_context_mangler manglers value)) = true.
Proof.
  pose proof (manglers_lookup_is_Some value) as Hkeys. split.
  - unfold ContextManglerName. rewrite known_manglers_text.
    destruct (manglers !! value) as [mangler |] eqn:Hlookup.
    + rewrite bool_decide_eq_true_2; [reflexivity |].
      apply Hkeys. now exists mangler.
    + rewrite bool_decide_eq_false_2; [reflexivity |].
      intros Hin. apply Hkeys in Hin as [mangler Hm]. discriminate.
  - destruct (bool_decide (value ∈ known_names)) eqn:Hin; [| reflexivity].
    apply bool_decide_eq_true_1 in Hin. unfold known_names in Hin.
    rewrite !elem_of_cons, elem_of_nil in Hin.
    destruct Hin as [-> | [-> | [-> | [-> | [-> | [-> | []]]]]]]; reflexivity.
Qed.

(** C10: the test [context - bias < 0] of the Multiplier's [unmangle] is
    reached from the constructor.  Opaque 24 is neither reserved value, is
    handed to [unmangle] as it is, lies below the default bias, and the
    construction raises the invalid-context [ValueError]; at [bias - 24]
    the difference is a multiple of the multiplier, so there the negative
    test alone rejects the value. *)
Theorem Multiplier_negative_branch_reachable :
  0 < 24 < 0xFFFFFFFF /\
  new KMultiplier 24 [] =
    bind (ContextManglerMultiplier.unmangle ContextManglerMultiplier.bias
            ContextManglerMultiplier.multiplier 24)
         (fun o => Ok (mkInstance (init_scheme KMultiplier []) o)) /\
  (24 - ContextManglerMultiplier.bias <? 0) = true /\
  new KMultiplier 24 [] =
    Raise (mkExn ValueError
             "Invalid context value -58720232 for multiplier mangler") /\
  exists v, 0 < v < 0xFFFFFFFF /\
    (v - ContextManglerMultiplier.bias <? 0) = true /\
    (v - ContextManglerMultiplier.bias) mod ContextManglerMultiplier.multiplier = 0 /\
    new KMultiplier v [] =
      Raise (mkExn ValueError "Invalid context value -24 for multiplier mangler").
Proof.
  split; [split; reflexivity |]. split; [reflexivity |].
  split; [reflexivity |]. split; [vm_compute; reflexivity |].
  exists (ContextManglerMultiplier.bias - 24).
  split; [split; reflexivity |]. split; [reflexivity |].
  split; [reflexivity |]. vm_compute. reflexivity.
Qed.

(** ** Further properties of the module *)

(** Tunables as the class attributes are: none negative, the limit and
    the multiplier positive, the limit within 32 bits.  The base class has
    no [mangle] of its own. *)
Definition tunables_ok (s : scheme) : Prop :=
  match s with
  | Base => False
  | Identity => True
  | Biased base => 0 <= base
  | EOR eor => 0 <= eor
  | Reverse nbits => 0 <= nbits
  | Descending limit => 0 < limit < 2 ^ 32
  | Multiplier bias multiplier => 0 <= bias /\ 0 < multiplier
  end.

(** [self.__class__]. *)
Definition class_of (s : scheme) : klass :=
  match s with
  | Base => KBase
  | Identity => KIdentity
  | Biased _ => KBiased
  | EOR _ => KEOR
  | Reverse _ => KReverse
  | Descending _ => KDescending
  | Multiplier _ _ => KMultiplier
  end.

(** [__repr__] of a mangler object. *)
Definition __repr__ (i : instance scheme) : result string :=
  let* o := opaque i in
  Ok (format "<{}(opaque={} (&{}), offset={})>"
             [__name__ (class_of (self i)); str_of_int o; str_of_int o;
              str_of_int (offset i)]).

(** The key a class is registered under when it has no [name] yet. *)
Definition short_name (k : klass) : string :=
  let name := __name__ k in
  if String.eqb (slice_to 14 name) "ContextMangler" then slice_from 14 name
  else name.

(** Every key of the dictionary is its own lower-case form. *)
Definition keys_lower (m : gmap string class_obj) : Prop :=
  forall key mangler, m !! key = Some mangler -> lower key = key.

(** *** Construction *)

(** A negative opaque value down to [-2^32] (exclusive) builds the same
    object as its unsigned 32-bit form, for every class and argument
    list. *)
Theorem new_signed_unsigned (k : klass) (v : Z) (args : list Z) :
  - 2 ^ 32 < v < 0 -> new k v args = new k (v + 2 ^ 32) args.
Proof.
  intros Hv. unfold new, ContextManglerBase.__init__.
  change (Z.shiftl 1 32) with (2 ^ 32).
  destruct (Z.eqb_spec v 0); [lia |].
  destruct (Z.eqb_spec (v + 2 ^ 32) 0); [lia |].
  destruct (Z.eqb_spec v 0xFFFFFFFF); [lia |].
  destruct (Z.eqb_spec (v + 2 ^ 32) (-1)); [lia |].
  destruct (Z.ltb_spec v 0); [| lia].
  destruct (Z.ltb_spec (v + 2 ^ 32) 0); [lia |].
  destruct (Z.eqb_spec v (-1)) as [-> | Hne].
  - reflexivity.
  - destruct (Z.eqb_spec (v + 2 ^ 32) 0xFFFFFFFF); [lia | reflexivity].
Qed.

Lemma new_signed_unsigned_witness :
  new KIdentity (-5) [] = Ok (mkInstance Identity 4294967291) /\
  new KIdentity (-5) [] = new KIdentity (-5 + 2 ^ 32) [].
Proof.
  split; [reflexivity |].
  apply (new_signed_unsigned KIdentity (-5) []). split; reflexivity.
Defined.

(** *** The schemes as bijections *)

Lemma round_trip_tunables (s : scheme) (o : Z) :
  tunables_ok s -> 0 <= o ->
  (forall limit, s = Descending limit -> o mod limit <> 0) ->
  round_trip s o.
Proof.
  intros Hs Ho Hd.
  destruct s as [| | base | eor | nbits | limit | bias multiplier];
    cbn [tunables_ok] in Hs.
  - contradiction.
  - apply Identity_round_trip.
  - apply Biased_round_trip. lia.
  - apply EOR_round_trip.
  - now apply Reverse_round_trip.
  - apply Descending_round_trip; [lia | lia | now apply Hd].
  - apply Multiplier_round_trip; lia.
Qed.

(** For tunables in range and a 32-bit offset, [unmangle(mangle(o)) == o];
    for the Descending scheme only when the offset is not a multiple of
    the limit. *)
Theorem round_trip_in_range (s : scheme) (o : Z) :
  tunables_ok s -> 0 <= o < 2 ^ 32 ->
  (forall limit, s = Descending limit -> o mod limit <> 0) ->
  round_trip s o.
Proof.
  intros Hs Ho Hd. apply round_trip_tunables; [assumption | lia | assumption].
Qed.

Lemma round_trip_in_range_witness :
  round_trip (Descending 10) 25 /\ mangle (Descending 10) 25 = Ok 26.
Proof.
  split; [| reflexivity].
  apply (round_trip_in_range (Descending 10) 25).
  - split; reflexivity.
  - split; [discriminate | reflexivity].
  - intros limit Heq. injection Heq as <-. discriminate.
Defined.

(** The Descending scheme at a multiple of its limit: offset [k * limit]
    is handed out as [(k + 1) * limit + 1], and a fresh object built from
    that opaque value is at offset [(k + 2) * limit]. *)
Theorem Descending_multiple_of_limit (limit k : Z) :
  0 < limit -> 0 < k -> (k + 1) * limit + 1 < 0xFFFFFFFF ->
  opaque (mkInstance (Descending limit) (k * limit)) = Ok ((k + 1) * limit + 1) /\
  new KDescending ((k + 1) * limit + 1) [limit] =
    Ok (mkInstance (Descending limit) ((k + 2) * limit)).
Proof.
  intros Hl Hk Hb. split.
  - unfold opaque, ContextManglerBase.opaque. cbn [offset self].
    destruct (Z.eqb_spec (k * limit) 0); [nia |].
    destruct (Z.eqb_spec (k * limit) (-1)); [nia |]. cbn [orb mangle].
    unfold ContextManglerDescending.mangle.
    rewrite py_mod_pos, py_int_div_pos by nia. cbn [bind].
    rewrite Z.mod_mul, Z.div_mul by lia. f_equal. lia.
  - unfold new, ContextManglerBase.__init__. cbn [init_scheme].
    destruct (Z.eqb_spec ((k + 1) * limit + 1) 0); [nia |].
    destruct (Z.eqb_spec ((k + 1) * limit + 1) (-1)); [nia |].
    destruct (Z.eqb_spec ((k + 1) * limit + 1) 0xFFFFFFFF); [lia |].
    destruct (Z.ltb_spec ((k + 1) * limit + 1) 0); [nia |]. cbn [orb unmangle].
    unfold ContextManglerDescending.unmangle.
    replace ((k + 1) * limit + 1 - 1) with ((k + 1) * limit) by lia.
    rewrite py_mod_pos, py_int_div_pos by nia. cbn [bind].
    rewrite Z.mod_mul, Z.div_mul by lia. do 2 f_equal. lia.
Qed.

Lemma Descending_multiple_of_limit_witness :
  opaque (mkInstance (Descending 0x76543) 0x76543) = Ok 969351 /\
  new KDescending 969351 [0x76543] = Ok (mkInstance (Descending 0x76543) 1454025).
Proof.
  apply (Descending_multiple_of_limit 0x76543 1); reflexivity.
Defined.

Lemma tunables_params_ok s : tunables_ok s -> params_ok s.
Proof. destruct s; cbn; lia. Qed.

Lemma round_trip_unmangle s o c :
  round_trip s o -> mangle s o = Ok c -> unmangle s c = Ok o.
Proof. unfold round_trip. intros Hrt Hm. now rewrite Hm in Hrt. Qed.

Lemma Descending_mangle_value limit o :
  0 < limit -> 0 <= o ->
  ContextManglerDescending.mangle limit o =
    Ok (limit - o mod limit + o / limit * limit + 1).
Proof.
  intros Hl Ho. unfold ContextManglerDescending.mangle.
  now rewrite py_mod_pos, py_int_div_pos by lia.
Qed.

Lemma Descending_mangle_injective limit o1 o2 c :
  0 < limit -> 0 <= o1 -> 0 <= o2 ->
  ContextManglerDescending.mangle limit o1 = Ok c ->
  ContextManglerDescending.mangle limit o2 = Ok c -> o1 = o2.
Proof.
  intros Hl H1 H2 Hc1 Hc2.
  rewrite Descending_mangle_value in Hc1, Hc2 by assumption.
  injection Hc1 as Hc1. injection Hc2 as Hc2.
  pose proof (Z.mod_pos_bound o1 limit Hl).
  pose proof (Z.mod_pos_bound o2 limit Hl).
  pose proof (Z.div_mod o1 limit ltac:(lia)) as E1.
  pose proof (Z.div_mod o2 limit ltac:(lia)) as E2.
  assert (Hq : o1 / limit = o2 / limit) by nia.
  rewrite Hq in *. lia.
Qed.

(** Within a scheme with tunables in range, two different 32-bit offsets
    never get the same opaque value; the Descending scheme included. *)
Theorem mangle_injective (s : scheme) (o1 o2 c : Z) :
  tunables_ok s -> 0 <= o1 < 2 ^ 32 -> 0 <= o2 < 2 ^ 32 ->
  mangle s o1 = Ok c -> mangle s o2 = Ok c -> o1 = o2.
Proof.
  intros Hs H1 H2 Hc1 Hc2.
  destruct s as [| | base | eor | nbits | limit | bias multiplier] eqn:Es;
    try (cbn [tunables_ok] in Hs;
         apply (Descending_mangle_injective limit o1 o2 c); (lia || assumption)).
  all: rewrite <- Es in *.
  all: assert (Hrt : forall o, 0 <= o < 2 ^ 32 -> round_trip s o)
    by (intros o Ho; apply round_trip_tunables;
        [subst s; exact Hs | lia | subst s; discriminate]).
  all: pose proof (round_trip_unmangle s o1 c (Hrt o1 H1) Hc1) as U1.
  all: pose proof (round_trip_unmangle s o2 c (Hrt o2 H2) Hc2) as U2.
  all: congruence.
Qed.

Lemma mangle_injective_witness :
  mangle (Descending 10) 20 = Ok 31 /\ mangle (Descending 10) (4 * 5) = Ok 31 /\
  20 = 4 * 5.
Proof.
  split; [reflexivity |]. split; [reflexivity |].
  apply (mangle_injective (Descending 10) 20 (4 * 5) 31).
  - split; reflexivity.
  - split; [discriminate | reflexivity].
  - split; [discriminate | reflexivity].
  - reflexivity.
  - reflexivity.
Defined.

Lemma Reverse_mangle_zero nbits : 0 <= nbits -> ContextManglerReverse.mangle nbits 0 = Ok 0.
Proof.
  intros Hn. destruct (Reverse_mangle_bits nbits 0 Hn) as (c & Hc & Hbits).
  rewrite Hc. f_equal. apply Z.bits_inj'. intros i Hi.
  rewrite Hbits by assumption. rewrite !Z.bits_0. now destruct (i <? nbits).
Qed.

Lemma mangle_positive s o c :
  tunables_ok s -> 0 < o -> mangle s o = Ok c -> 0 < c.
Proof.
  intros Hs Ho Hc.
  destruct s as [| | base | eor | nbits | limit | bias multiplier];
    cbn [tunables_ok mangle] in Hs, Hc.
  - contradiction.
  - injection Hc as <-. lia.
  - injection Hc as <-. lia.
  - injection Hc as <-.
    assert (0 <= Z.lxor o eor) by (apply Z.lxor_nonneg; lia). lia.
  - pose proof (Reverse_mangle_nonneg nbits o c ltac:(lia) Hc) as Hge.
    destruct (Z.eq_dec c 0) as [-> | Hne]; [| lia].
    destruct (Reverse_involution nbits o Hs) as (c' & Hc' & Hback).
    cbn [mangle] in Hc', Hback. rewrite Hc in Hc'. injection Hc' as <-.
    rewrite Reverse_mangle_zero in Hback by assumption.
    injection Hback as <-. lia.
  - rewrite Descending_mangle_value in Hc by lia. injection Hc as <-.
    pose proof (Z.mod_pos_bound o limit ltac:(lia)).
    assert (0 <= o / limit) by (apply Z.div_pos; lia). nia.
  - injection Hc as <-. nia.
Qed.

(** For tunables in range and an object at a non-negative offset,
    [opaque] is non-negative and is 0 exactly at offset 0; in particular
    it is never -1.  The unsigned form 0xFFFFFFFF of the terminal value is
    not excluded: the Biased scheme with base 0xFFFFFFFE hands it out at
    offset 1. *)
Theorem opaque_zero_only_at_start (i : instance scheme) (c : Z) :
  tunables_ok (self i) -> 0 <= offset i -> opaque i = Ok c ->
  0 <= c /\ (c = 0 <-> offset i = 0) /\ c <> -1.
Proof.
  intros Hs Ho Hc. unfold opaque, ContextManglerBase.opaque in Hc.
  destruct (Z.eqb_spec (offset i) 0) as [Hz | Hnz]; cbn [orb] in Hc.
  - injection Hc as <-. rewrite Hz.
    split; [discriminate |]. split; [tauto | discriminate].
  - destruct (Z.eqb_spec (offset i) (-1)); [lia |].
    assert (Hlt : 0 < offset i) by lia.
    pose proof (mangle_positive (self i) (offset i) c Hs Hlt Hc) as Hpos.
    split; [lia |]. split; [split; intros; lia | lia].
Qed.

Lemma opaque_zero_only_at_start_witness :
  opaque (mkInstance (EOR 0x76543) 0x76543) = Ok 1 /\
  (0 <= 1 /\ (1 = 0 <-> 0x76543 = 0) /\ 1 <> -1) /\
  opaque (mkInstance (Biased 0xFFFFFFFE) 1) = Ok 0xFFFFFFFF /\
  new KBiased 0xFFFFFFFF [0xFFFFFFFE] = Ok (mkInstance (Biased 0xFFFFFFFE) (-1)).
Proof.
  split; [reflexivity |]. split; [| split; reflexivity].
  apply (opaque_zero_only_at_start (mkInstance (EOR 0x76543) 0x76543) 1).
  - discriminate.
  - discriminate.
  - reflexivity.
Defined.

Lemma mangle_of_unmangle s c o :
  tunables_ok s -> 0 < c ->
  (forall limit, s = Descending limit -> (c - 1) mod limit <> 0) ->
  unmangle s c = Ok o -> mangle s o = Ok c.
Proof.
  intros Hs Hc Hd Hu.
  destruct s as [| | base | eor | nbits | limit | bias multiplier];
    cbn [tunables_ok unmangle mangle] in Hs, Hu |- *.
  - contradiction.
  - injection Hu as <-. reflexivity.
  - unfold ContextManglerBiased.unmangle in Hu.
    destruct ((c >? 0) && (c <? base)); [discriminate |].
    injection Hu as <-. unfold ContextManglerBiased.mangle. f_equal. lia.
  - injection Hu as <-. unfold ContextManglerEOR.mangle. f_equal.
    rewrite Z.lxor_assoc, Z.lxor_nilpotent, Z.lxor_0_r. lia.
  - destruct (Reverse_involution nbits c Hs) as (o' & Ho' & Hback).
    cbn [mangle] in Ho', Hback. unfold ContextManglerReverse.unmangle in Hu.
    rewrite Hu in Ho'. now injection Ho' as <-.
  - specialize (Hd limit eq_refl).
    unfold ContextManglerDescending.unmangle in Hu.
    rewrite py_mod_pos, py_int_div_pos in Hu by lia. cbn [bind] in Hu.
    injection Hu as <-.
    pose proof (Z.mod_pos_bound (c - 1) limit ltac:(lia)) as Hb.
    assert (Hq : 0 <= (c - 1) / limit) by (apply Z.div_pos; lia).
    rewrite Descending_mangle_value by nia.
    rewrite Z.mod_add, Z.div_add by lia.
    rewrite Z.mod_small, Z.div_small by lia. f_equal.
    pose proof (Z.div_mod (c - 1) limit ltac:(lia)). lia.
  - unfold ContextManglerMultiplier.unmangle in Hu.
    destruct (Z.ltb_spec (c - bias) 0); cbn [bind] in Hu; [discriminate |].
    rewrite py_mod_pos in Hu by lia. cbn [bind] in Hu.
    destruct (Z.eqb_spec ((c - bias) mod multiplier) 0) as [Hz |];
      cbn [negb] in Hu; [| discriminate].
    rewrite py_int_div_pos in Hu by lia. injection Hu as <-.
    unfold ContextManglerMultiplier.mangle. f_equal.
    pose proof (Z.div_mod (c - bias) multiplier ltac:(lia)). lia.
Qed.

(** For tunables in range and a positive 32-bit opaque value [c] (for
    the Descending scheme, one with [c - 1] not a multiple of the limit),
    [unmangle] returns [o] exactly when [o] is a non-negative offset that
    [mangle] turns into [c]: it accepts the values [mangle] produces and
    no others. *)
Theorem unmangle_iff_mangle (s : scheme) (c o : Z) :
  tunables_ok s -> 0 < c < 2 ^ 32 ->
  (forall limit, s = Descending limit -> (c - 1) mod limit <> 0) ->
  unmangle s c = Ok o <-> 0 <= o /\ mangle s o = Ok c.
Proof.
  intros Hs Hc Hd. split.
  - intros Hu. split.
    + apply (unmangle_nonneg s c o); [now apply tunables_params_ok | lia | exact Hu].
    + apply mangle_of_unmangle; (assumption || lia).
  - intros [Ho Hm]. apply round_trip_unmangle; [| exact Hm].
    destruct s as [| | base | eor | nbits | limit | bias multiplier];
      cbn [tunables_ok] in Hs.
    + contradiction.
    + apply Identity_round_trip.
    + now apply Biased_round_trip.
    + apply EOR_round_trip.
    + now apply Reverse_round_trip.
    + apply Descending_round_trip; [lia | exact Ho |].
      intros Hz. apply (Hd limit eq_refl).
      cbn [mangle] in Hm. rewrite Descending_mangle_value in Hm by lia.
      injection Hm as <-. rewrite Hz.
      replace (limit - 0 + o / limit * limit + 1 - 1)
        with ((1 + o / limit) * limit) by lia.
      apply Z.mod_mul. lia.
    + apply Multiplier_round_trip; lia.
Qed.

Lemma unmangle_iff_mangle_witness :
  unmangle (Multiplier 0x3800000 24) (0x3800000 + 72) = Ok 3 /\
  (unmangle (Multiplier 0x3800000 24) (0x3800000 + 72) = Ok 3 <->
   0 <= 3 /\ mangle (Multiplier 0x3800000 24) 3 = Ok (0x3800000 + 72)).
Proof.
  split; [reflexivity |].
  apply (unmangle_iff_mangle (Multiplier 0x3800000 24) (0x3800000 + 72) 3).
  - split; [discriminate | reflexivity].
  - split; reflexivity.
  - intros limit Heq. discriminate Heq.
Defined.

(** *** Bit reversal at any width *)

(** For any bit count [nbits >= 0] and any integer offset, bit [i] of the
    mangled value is bit [nbits - 1 - i] of the offset below [nbits] and
    bit [i] of the offset from [nbits] on; so the part above the low
    [nbits] bits is kept, and zero bits leave the offset as it is. *)
Theorem Reverse_mirrors_low_bits (nbits o : Z) :
  0 <= nbits ->
  exists c, mangle (Reverse nbits) o = Ok c /\
    (forall i, 0 <= i ->
       Z.testbit c i =
       if i <? nbits then Z.testbit o (nbits - 1 - i) else Z.testbit o i) /\
    Z.shiftr c nbits = Z.shiftr o nbits /\
    mangle (Reverse 0) o = Ok o.
Proof.
  intros Hn. destruct (Reverse_mangle_bits nbits o Hn) as (c & Hc & Hbits).
  exists c. split; [exact Hc |]. split; [exact Hbits |]. split.
  - apply Z.bits_inj'. intros i Hi. rewrite !Z.shiftr_spec by assumption.
    rewrite Hbits by lia. destruct (Z.ltb_spec (i + nbits) nbits); [lia | reflexivity].
  - reflexivity.
Qed.

Lemma Reverse_mirrors_low_bits_witness :
  exists c, mangle (Reverse 4) 0x13 = Ok c /\ c = 0x1C.
Proof.
  destruct (Reverse_mirrors_low_bits 4 0x13) as (c & Hc & _).
  - discriminate.
  - exists c. split; [exact Hc |].
    vm_compute in Hc. now injection Hc as <-.
Defined.

(** *** Advancing *)

Lemma iadd_zero (i : instance scheme) : __iadd__ i 0 = i.
Proof.
  unfold __iadd__, ContextManglerBase.__iadd__. destruct i as [s o]. cbn.
  destruct (o =? -1); [reflexivity |]. now rewrite Z.add_0_r.
Qed.

Lemma iadd_iadd (i : instance scheme) (a b : Z) :
  valid_offset (offset i) -> 0 <= a ->
  __iadd__ (__iadd__ i a) b = __iadd__ i (a + b).
Proof.
  intros Hi Ha. unfold __iadd__, ContextManglerBase.__iadd__.
  destruct (Z.eqb_spec (offset i) (-1)) as [Ht | Hnt].
  - now rewrite Ht.
  - cbn [offset self]. destruct Hi as [Hi | Hi]; [| contradiction].
    destruct (Z.eqb_spec (offset i + a) (-1)); [lia |].
    f_equal. lia.
Qed.

(** From a valid offset, advancing by [a >= 0] and then by [b] is
    advancing by [a + b], and advancing by 1 [n] times is advancing by
    [n]; from the terminal state all of them do nothing. *)
Theorem advance_composes (i : instance scheme) (a b : Z) (n : nat) :
  valid_offset (offset i) -> 0 <= a ->
  __iadd__ (__iadd__ i a) b = __iadd__ i (a + b) /\
  fold_left __iadd__ (repeat 1 n) i = __iadd__ i (Z.of_nat n).
Proof.
  intros Hi Ha. split; [now apply iadd_iadd |].
  clear a b Ha. revert i Hi. induction n as [| n IH]; intros i Hi.
  - cbn [repeat fold_left]. symmetry. apply iadd_zero.
  - cbn [repeat fold_left]. rewrite IH.
    + rewrite iadd_iadd by (assumption || lia). f_equal. lia.
    + apply (apply_op_valid i (Advance 1)); [cbn; lia | assumption].
Qed.

Lemma advance_composes_witness :
  __iadd__ (__iadd__ (mkInstance Identity 4) 2) 3 = mkInstance Identity 9 /\
  fold_left __iadd__ (repeat 1 5) (mkInstance Identity 4) = mkInstance Identity 9.
Proof.
  destruct (advance_composes (mkInstance Identity 4) 2 3 5) as [H1 H2].
  - left. discriminate.
  - discriminate.
  - split; [exact H1 | exact H2].
Defined.

(** *** Errors *)

(** An opaque value that is neither 0, -1 nor 0xFFFFFFFF builds no object
    when the tunable given makes the arithmetic of [unmangle] fail: a
    negative bit count raises [ValueError] from the shift, a zero limit
    raises [ZeroDivisionError], and a zero multiplier raises
    [ZeroDivisionError] unless the value is below the bias, which is the
    invalid-context [ValueError]. *)
Theorem bad_tunables_raise (v nbits : Z) :
  v <> 0 -> v <> -1 -> v <> 0xFFFFFFFF -> nbits < 0 ->
  (exists e, new KReverse v [nbits] = Raise e /\ exc_class e = ValueError) /\
  (exists e, new KDescending v [0] = Raise e /\ exc_class e = ZeroDivisionError) /\
  (exists e, new KMultiplier v [0] = Raise e /\
     exc_class e =
       if (if v <? 0 then v + 2 ^ 32 else v) - ContextManglerMultiplier.bias <? 0
       then ValueError else ZeroDivisionError).
Proof.
  intros H0 H1 H2 Hn. unfold new, ContextManglerBase.__init__.
  destruct (Z.eqb_spec v 0); [contradiction |].
  destruct (Z.eqb_spec v (-1)); [contradiction |].
  destruct (Z.eqb_spec v 0xFFFFFFFF); [contradiction |]. cbn [orb].
  change (Z.shiftl 1 32) with (2 ^ 32).
  set (c := if v <? 0 then v + 2 ^ 32 else v).
  cbn [init_scheme unmangle]. repeat split.
  - unfold ContextManglerReverse.unmangle, ContextManglerReverse.mangle.
    destruct (ContextManglerReverse.loop (Z.to_nat nbits) 0 c) as [value o].
    unfold py_shiftl. destruct (Z.ltb_spec nbits 0); [| lia].
    eexists. split; reflexivity.
  - eexists. split; reflexivity.
  - unfold ContextManglerMultiplier.unmangle.
    destruct (c - ContextManglerMultiplier.bias <? 0);
      eexists; split; reflexivity.
Qed.

Lemma bad_tunables_raise_witness :
  (exists e, new KReverse 7 [-1] = Raise e /\ exc_class e = ValueError) /\
  (exists e, new KDescending 7 [0] = Raise e /\ exc_class e = ZeroDivisionError).
Proof.
  destruct (bad_tunables_raise 7 (-1)) as (H1 & H2 & _);
    [discriminate | discriminate | discriminate | reflexivity |].
  split; [exact H1 | exact H2].
Defined.

(** [ContextManglerBase] itself works only at the reserved values: any
    other opaque value is refused by its [unmangle], and an object moved
    off offset 0 has neither an [opaque] value nor a [repr]; all three
    raise [NotImplementedError]. *)
Theorem Base_is_abstract (v o : Z) (args : list Z) :
  v <> 0 -> v <> -1 -> v <> 0xFFFFFFFF -> o <> 0 -> o <> -1 ->
  new KBase v args =
    Raise (mkExn NotImplementedError
             "ContextManglerBase.unmangle is not implemented") /\
  opaque (mkInstance Base o) =
    Raise (mkExn NotImplementedError
             "ContextManglerBase.mangle is not implemented") /\
  __repr__ (mkInstance Base o) =
    Raise (mkExn NotImplementedError
             "ContextManglerBase.mangle is not implemented").
Proof.
  intros Hv0 Hv1 Hv2 Ho0 Ho1.
  unfold __repr__, opaque, ContextManglerBase.opaque, new,
    ContextManglerBase.__init__. cbn [offset self].
  destruct (Z.eqb_spec v 0); [contradiction |].
  destruct (Z.eqb_spec v (-1)); [contradiction |].
  destruct (Z.eqb_spec v 0xFFFFFFFF); [contradiction |].
  destruct (Z.eqb_spec o 0); [contradiction |].
  destruct (Z.eqb_spec o (-1)); [contradiction |].
  repeat split.
Qed.

Lemma Base_is_abstract_witness :
  new KBase 5 [] =
    Raise (mkExn NotImplementedError
             "ContextManglerBase.unmangle is not implemented") /\
  opaque (__iadd__ (mkInstance Base 0) 1) =
    Raise (mkExn NotImplementedError
             "ContextManglerBase.mangle is not implemented").
Proof.
  destruct (Base_is_abstract 5 1 []) as (H1 & H2 & _);
    try discriminate.
  split; [exact H1 | exact H2].
Defined.

(** *** Registration *)

(** The key [register_context_mangler] stores a class under. *)
Definition register_key (mangler : class_obj) : string :=
  lower (if not_name (name mangler) then short_name (cls mangler)
         else default EmptyString (name mangler)).

Lemma register_eq (mangler : class_obj) (m : gmap string class_obj) :
  register_context_mangler mangler m =
  let mangler' :=
    if not_name (name mangler) then mkClass (cls mangler) (Some (__name__ (cls mangler)))
    else mangler in
  (mangler', <[register_key mangler := mangler']> m).
Proof.
  unfold register_context_mangler, register_key, short_name.
  now destruct (not_name (name mangler)).
Qed.

Lemma short_name_not_full k : lower (short_name k) <> lower (__name__ k).
Proof. destruct k; vm_compute; discriminate. Qed.

Lemma manglers_lookup_short k :
  In k decorated -> manglers !! lower (short_name k) = Some (registered k).
Proof.
  cbn. intros [<- | [<- | [<- | [<- | [<- | [<- | []]]]]]]; vm_compute; reflexivity.
Qed.

(** Decorating a class that has no [name] yet gives it its class name,
    and afterwards [find_context_mangler] returns it for the class name
    without the "ContextMangler" prefix, in any letter case, whatever the
    dictionary held before. *)
Theorem register_then_find (k : klass) (m : gmap string class_obj) (s : string) :
  lower s = lower (short_name k) ->
  fst (register_context_mangler (class_def k) m) = registered k /\
  find_context_mangler (snd (register_context_mangler (class_def k) m)) s =
    Ok (registered k).
Proof.
  intros Hs. rewrite register_eq. cbn [fst snd class_def name cls not_name].
  split; [reflexivity |].
  unfold find_context_mangler, register_key. cbn [name cls not_name].
  rewrite Hs, lookup_insert_eq. reflexivity.
Qed.

Lemma register_then_find_witness :
  find_context_mangler (snd (register_context_mangler (class_def KEOR) ∅)) "Eor" =
    Ok (registered KEOR).
Proof.
  apply (register_then_find KEOR ∅ "Eor"). reflexivity.
Defined.

(** Registration touches one key only: a name whose lower-case form is
    not the key of the class being registered is looked up as before; and
    the class is stored under its key even when the key was taken (the
    last registration wins, without an error). *)
Theorem register_other_names (mangler : class_obj) (m : gmap string class_obj)
    (s : string) :
  lower s <> register_key mangler ->
  find_context_mangler (snd (register_context_mangler mangler m)) s =
    find_context_mangler m s /\
  snd (register_context_mangler mangler m) !! register_key mangler =
    Some (fst (register_context_mangler mangler m)).
Proof.
  intros Hs. rewrite register_eq. cbn [fst snd]. split.
  - unfold find_context_mangler. now rewrite lookup_insert_ne by congruence.
  - apply lookup_insert_eq.
Qed.

Lemma register_other_names_witness :
  find_context_mangler
    (snd (register_context_mangler (class_def KBase) manglers)) "Reverse" =
    Ok (registered KReverse) /\
  find_context_mangler
    (snd (register_context_mangler (mkClass KBase (Some "Reverse")) manglers))
    "Reverse" = Ok (mkClass KBase (Some "Reverse")).
Proof.
  split.
  - destruct (register_other_names (class_def KBase) manglers "Reverse") as [H _].
    + discriminate.
    + rewrite H. reflexivity.
  - reflexivity.
Defined.

Lemma register_class_def k (m : gmap string class_obj) :
  register_context_mangler (class_def k) m =
  (registered k, <[lower (short_name k) := registered k]> m).
Proof. reflexivity. Qed.

Lemma register_registered k (m : gmap string class_obj) :
  register_context_mangler (registered k) m =
  (registered k, <[lower (__name__ k) := registered k]> m).
Proof. destruct k; reflexivity. Qed.

(** Decorating a class a second time does not change it but adds a
    second key: the class already has a [name], which is used whole, so
    the class is then found under its full class name as well as under
    the short one. *)
Theorem register_twice (k : klass) (m : gmap string class_obj) :
  let r1 := register_context_mangler (class_def k) m in
  let r2 := register_context_mangler (fst r1) (snd r1) in
  fst r2 = fst r1 /\
  find_context_mangler (snd r2) (short_name k) = Ok (registered k) /\
  find_context_mangler (snd r2) (__name__ k) = Ok (registered k) /\
  find_context_mangler (snd r1) (__name__ k) = find_context_mangler m (__name__ k).
Proof.
  cbn zeta. rewrite register_class_def. cbn [fst snd].
  rewrite register_registered. cbn [fst snd].
  pose proof (short_name_not_full k) as Hne.
  unfold find_context_mangler. repeat split.
  - rewrite lookup_insert_ne by congruence. now rewrite lookup_insert_eq.
  - now rewrite lookup_insert_eq.
  - now rewrite lookup_insert_ne by congruence.
Qed.

(** *** Lower-case keys *)

Lemma keys_lower_empty : keys_lower ∅.
Proof. intros key mangler H. now rewrite lookup_empty in H. Qed.

Lemma register_keys_lower (mangler : class_obj) (m : gmap string class_obj) :
  keys_lower m -> keys_lower (snd (register_context_mangler mangler m)).
Proof.
  intros Hm key c. rewrite register_eq. cbn [snd].
  rewrite lookup_insert_Some. intros [[<- _] | [_ Hc]].
  - unfold register_key. apply lower_idem.
  - now apply (Hm key c).
Qed.

Lemma keys_lower_manglers : keys_lower manglers.
Proof.
  unfold manglers, decorated. cbn [fold_left].
  repeat apply register_keys_lower. apply keys_lower_empty.
Qed.

(** Registration keeps every key of the dictionary in lower case, so
    the dictionary the module builds has lower-case keys only, whatever
    classes are decorated and in whatever order. *)
Theorem register_keeps_keys_lower (l : list class_obj) (m : gmap string class_obj) :
  keys_lower m ->
  keys_lower (fold_left (fun m c => snd (register_context_mangler c m)) l m).
Proof.
  revert m. induction l as [| c l IH]; intros m Hm; cbn [fold_left].
  - exact Hm.
  - apply IH. now apply register_keys_lower.
Qed.

Lemma register_keeps_keys_lower_witness :
  keys_lower (fold_left (fun m c => snd (register_context_mangler c m))
                        [class_def KIdentity; mkClass KBase (Some "Plain")] ∅).
Proof.
  apply (register_keeps_keys_lower
           [class_def KIdentity; mkClass KBase (Some "Plain")] ∅ keys_lower_empty).
Defined.

(** In a dictionary whose keys are in lower case, a value the
    configuration validator accepts is returned unchanged, is itself in
    lower case, and is found by [find_context_mangler]. *)
Theorem validator_implies_find (m : gmap string class_obj)
    (ConfigurationError : exn_class) (value value' : string) :
  keys_lower m ->
  ContextManglerName m ConfigurationError value = Ok value' ->
  value' = value /\ lower value = value /\
  exists mangler, find_context_mangler m value = Ok mangler.
Proof.
  intros Hm Hv. unfold ContextManglerName in Hv.
  destruct (m !! value) as [mangler |] eqn:Hlookup; [| discriminate].
  injection Hv as <-. pose proof (Hm value mangler Hlookup) as Hlow.
  split; [reflexivity |]. split; [exact Hlow |].
  exists mangler. unfold find_context_mangler. now rewrite Hlow, Hlookup.
Qed.

Lemma validator_implies_find_witness :
  ContextManglerName manglers ValueError "reverse" = Ok "reverse" /\
  exists mangler, find_context_mangler manglers "reverse" = Ok mangler.
Proof.
  split; [reflexivity |].
  destruct (validator_implies_find manglers ValueError "reverse" "reverse"
              keys_lower_manglers eq_refl) as (_ & _ & H).
  exact H.
Defined.

(** *** Construction by name *)

(** For each decorated class, [create_context_mangler] with its short
    name in any letter case builds what calling the class builds, errors
    of the class included. *)
Theorem create_by_name (k : klass) (s : string) (v : Z) (args : list Z) :
  In k decorated -> lower s = lower (short_name k) ->
  create_context_mangler manglers s v args = new k v args.
Proof.
  intros Hk Hs. unfold create_context_mangler, find_context_mangler.
  now rewrite Hs, manglers_lookup_short.
Qed.

Lemma create_by_name_witness :
  create_context_mangler manglers "BIASED" 0x76544 [] = Ok (mkInstance (Biased 0x76543) 1) /\
  create_context_mangler manglers "BIASED" 1 [] = new KBiased 1 [].
Proof.
  split; [reflexivity |].
  apply (create_by_name KBiased "BIASED" 1 []); [| reflexivity].
  right. left. reflexivity.
Defined.

(** A name that is none of the six, in any letter case, makes
    [create_context_mangler] raise the not-known [ValueError] whatever the
    opaque value and the arguments are. *)
Theorem create_unknown_name (s : string) (v : Z) (args : list Z) :
  lower s ∉ known_names ->
  create_context_mangler manglers s v args =
    Raise (mkExn ValueError (format "Context mangler '{}' is not known" [s])).
Proof.
  intros Hs. unfold create_context_mangler, find_context_mangler.
  destruct (manglers !! lower s) as [mangler |] eqn:Hlookup; [| reflexivity].
  exfalso. apply Hs, manglers_lookup_is_Some. now exists mangler.
Qed.

Lemma create_unknown_name_witness :
  create_context_mangler manglers "ContextManglerIdentity" 1 [] =
    Raise (mkExn ValueError "Context mangler 'ContextManglerIdentity' is not known").
Proof.
  apply (create_unknown_name "ContextManglerIdentity" 1 []).
  unfold known_names. rewrite !elem_of_cons, elem_of_nil.
  intros [H | [H | [H | [H | [H | [H | []]]]]]]; discriminate H.
Defined.

(** *** Listing *)

Section SortedFacts.
Context {A : Type} (key : A -> string).

Definition key_le (a b : A) : Prop := String.leb (key a) (key b) = true.

Lemma sorted_insert_perm x l : Permutation (sorted_insert key x l) (x :: l).
Proof.
  induction l as [| y l IH]; cbn [sorted_insert]; [reflexivity |].
  destruct (String.leb (key x) (key y)); [reflexivity |].
  rewrite IH. apply perm_swap.
Qed.

Lemma sorted_perm l : Permutation (sorted key l) l.
Proof.
  induction l as [| x l IH]; cbn [sorted]; [reflexivity |].
  now rewrite sorted_insert_perm, IH.
Qed.

Lemma sorted_insert_hd x y l :
  key_le y x -> HdRel key_le y l -> HdRel key_le y (sorted_insert key x l).
Proof.
  intros Hyx Hl. destruct l as [| z l]; cbn [sorted_insert].
  - now constructor.
  - destruct (String.leb (key x) (key z)); constructor; [assumption |].
    now inversion Hl.
Qed.

Lemma sorted_insert_sorted x l :
  Sorted key_le l -> Sorted key_le (sorted_insert key x l).
Proof.
  induction l as [| y l IH]; intros Hl; cbn [sorted_insert].
  - repeat constructor.
  - destruct (String.leb (key x) (key y)) eqn:Hxy.
    + constructor; [assumption | now constructor].
    + inversion Hl as [| ? ? Hl' Hhd]; subst.
      constructor; [now apply IH |].
      apply sorted_insert_hd; [| assumption].
      unfold key_le. destruct (String.leb_total (key x) (key y)); congruence.
Qed.

Lemma sorted_sorted l : Sorted key_le (sorted key l).
Proof.
  induction l as [| x l IH]; cbn [sorted]; [constructor |].
  now apply sorted_insert_sorted.
Qed.
End SortedFacts.

(** For any contents of the dictionary, [list_context_manglers] returns
    the stored classes, each as often as it is stored, in non-decreasing
    order of their [name]. *)
Theorem list_context_manglers_any (m : gmap string class_obj) :
  Permutation (list_context_manglers m) (map snd (map_to_list m)) /\
  Sorted (key_le name_key) (list_context_manglers m) /\
  length (list_context_manglers m) = size m.
Proof.
  unfold list_context_manglers. split; [apply sorted_perm |].
  split; [apply sorted_sorted |].
  rewrite (Permutation_length (sorted_perm name_key _)), length_map.
  apply length_map_to_list.
Qed.

(** *** Printing *)

(** At the two reserved offsets [repr] never fails and shows the class
    name with 0 or -1, whatever the tunables of the object are. *)
Theorem repr_at_reserved_offsets (s : scheme) :
  __repr__ (mkInstance s 0) =
    Ok (String.append "<" (String.append (__name__ (class_of s))
                             "(opaque=0 (&0), offset=0)>")) /\
  __repr__ (mkInstance s (-1)) =
    Ok (String.append "<" (String.append (__name__ (class_of s))
                             "(opaque=-1 (&-1), offset=-1)>")).
Proof.
  split; destruct s; reflexivity.
Qed.

(** *** Handing a context out and taking it back *)

(** The smoke test's check at any offset: for tunables in range, an
    object at a 32-bit offset [o >= 0] (for the Descending scheme, 0 or
    not a multiple of the limit) has an opaque value, and unless that
    value is 0xFFFFFFFF a fresh object of the same class and arguments
    built from it is at offset [o] again. *)
Theorem reconstruct_from_opaque (k : klass) (args : list Z) (o c : Z) :
  tunables_ok (init_scheme k args) -> 0 <= o < 2 ^ 32 ->
  (forall limit, init_scheme k args = Descending limit ->
                 o = 0 \/ o mod limit <> 0) ->
  opaque (mkInstance (init_scheme k args) o) = Ok c -> c <> 0xFFFFFFFF ->
  new k c args = Ok (mkInstance (init_scheme k args) o).
Proof.
  intros Hs Ho Hd Hc Hmax.
  unfold new, ContextManglerBase.__init__.
  set (s := init_scheme k args) in *.
  unfold opaque, ContextManglerBase.opaque in Hc. cbn [offset self] in Hc.
  destruct (Z.eqb_spec o 0) as [-> | Hnz]; cbn [orb] in Hc.
  - injection Hc as <-. reflexivity.
  - destruct (Z.eqb_spec o (-1)); [lia |].
    assert (Hpos : 0 < c)
      by (apply (mangle_positive s o c); (assumption || lia)).
    destruct (Z.eqb_spec c 0); [lia |].
    destruct (Z.eqb_spec c (-1)); [lia |].
    destruct (Z.eqb_spec c 0xFFFFFFFF); [contradiction |].
    destruct (Z.ltb_spec c 0); [lia |]. cbn [orb].
    rewrite (round_trip_unmangle s o c); [reflexivity | | exact Hc].
    apply round_trip_tunables; [assumption | lia |].
    intros limit Heq. destruct (Hd limit Heq); [contradiction | assumption].
Qed.

Lemma reconstruct_from_opaque_witness :
  opaque (mkInstance (Reverse 17) 200000) = Ok 132449 /\
  new KReverse 132449 [] = Ok (mkInstance (Reverse 17) 200000).
Proof.
  split; [reflexivity |].
  apply (reconstruct_from_opaque KReverse [] 200000 132449).
  - discriminate.
  - split; [discriminate | reflexivity].
  - intros limit Heq. discriminate Heq.
  - reflexivity.
  - discriminate.
Defined.
